(** * The data-service worker: redirect route, click-socket route and the
      queue handler for link clicks

    A shallow embedding of

    - the Hono application of the data-service worker
      (routes [/click-socket/:accountId], [/do/:name] and [/:id]), and
    - [handleLinkClick] of [queue-handlers/link-clicks.ts].

    Both are [async] functions that talk to the platform (record store,
    queue, durable objects, workflow scheduler).  They are embedded as
    programs over a signature of platform calls; a platform answers the
    calls and owns the state.  A call of an [async] collaborator answers
    with a promise, and the program decides whether it awaits it. *)

From stdpp Require Import base option list strings gmap.
From Stdlib Require Import ZArith QArith Strings.Ascii.

Local Open Scope Z_scope.

(** ** JavaScript values *)

(** A thrown value, or the reason a promise is rejected with. *)
Definition Err : Type := string.

(** A settled promise.  Whether and when a program looks at it is the
    program's business: [await] does, handing it to [waitUntil] does not. *)
Inductive Promise (A : Type) : Type :=
| Fulfilled (a : A)
| Rejected (e : Err).
Arguments Fulfilled {A} a.
Arguments Rejected {A} e.

(** What a synchronous call gives: the value it returns, or what it
    throws. *)
Inductive Sync (A : Type) : Type :=
| Returns (a : A)
| Throws (e : Err).
Arguments Returns {A} a.
Arguments Throws {A} e.

(** The JavaScript [number]s carried through (latitude, longitude). *)
Definition number : Type := Q.

(** What [c.req.raw.cf] may hold before it is validated. *)
#[warnings="-register-all"]
Inductive JsValue : Type :=
| JUndefined
| JString (s : string)
| JNumber (n : number)
| JObject (fields : list (string * JsValue)).

(** [!x] on a [string | undefined]. *)
Definition falsy (x : option string) : bool :=
  match x with
  | None => true
  | Some s => bool_decide (s = EmptyString)
  end.

(** [x !== s] on a [string | undefined]. *)
Definition strict_neq (x : option string) (s : string) : bool :=
  match x with
  | None => true
  | Some s' => negb (bool_decide (s' = s))
  end.

(** ** Records exchanged by the worker *)

(** One destination rule of a link: a country predicate and a URL. *)
Module DestinationRule.
Record t : Type := mk { country : string; dest : string }.
End DestinationRule.

(** Modelled from the spec: the link schema ([LinkSchemaType] of data-ops) is
    missing here.  A link has an owning account id, an ordered list of
    destination rules and a default destination (data model, Link; resolver
    contract [{accountId, rules, defaultDestination}]). *)
Module LinkInfo.
Record t : Type := mk {
  accountId : string;
  rules : list DestinationRule.t;
  defaultDestination : string
}.
End LinkInfo.

(** Modelled from the spec: the type [cloudflareInfoSchema] parses to (of
    data-ops) is missing here; the handler reads [country], [latitude] and
    [longitude] of it, the last two optional in the queue message. *)
Module CloudflareInfo.
Record t : Type := mk {
  country : string;
  latitude : option number;
  longitude : option number
}.
End CloudflareInfo.

(** [LinkClickMessageType["data"]], with the fields the handler fills in. *)
Module LinkClickData.
Record t : Type := mk {
  id : string;
  country : string;
  destination : string;
  accountId : string;
  latitude : option number;
  longitude : option number;
  timestamp : string
}.
End LinkClickData.

(** [LinkClickMessageType]. *)
Module LinkClickMessage.
Record t : Type := mk {
  type : string;
  data : LinkClickData.t
}.
End LinkClickMessage.

(** A fetch request: method, path of the URL, the [Headers] object (one value
    per lower-cased name) and the platform's [cf] property. *)
Module Request.
Record t : Type := mk {
  method : string;
  path : string;
  headers : gmap string string;
  cf : JsValue
}.
End Request.

(** A response: status, [Location] header, body. *)
Module Response.
Record t : Type := mk {
  status : Z;
  location : option string;
  body : string
}.
End Response.

(** The durable-object namespaces bound in [Env]. *)
Inductive Namespace : Type :=
| LINK_CLICK_TRACKER_OBJECT
| EVALUATION_SCHEDULER.

(** [ns.idFromName(name)]: the id is a function of the namespace and of the
    name, nothing else. *)
Record DurableObjectId : Type := idFromName {
  do_namespace : Namespace;
  do_name : string
}.

(** ** Programs over platform calls *)

(** The calls the two source files make.  [env] is the platform itself and
    is not passed along. *)
Inductive Eff : Type -> Type :=
| GetRoutingDestinations (id : string) : Eff (Promise (option LinkInfo.t))
| NewDateToISOString : Eff string
| QueueSend (msg : LinkClickMessage.t) (delaySeconds : Z) : Eff (Promise unit)
| WaitUntil (p : Promise unit) : Eff unit
| StubFetch (doId : DurableObjectId) (raw : Request.t) : Eff (Promise Response.t)
| AddLinkClick (info : LinkClickData.t) : Eff (Promise unit)
| ScheduleEvalWorfklow (event : LinkClickMessage.t) : Eff (Promise unit).

(** The body of an [async] function: it returns, throws, or makes a call and
    goes on with the answer. *)
Inductive Prog (A : Type) : Type :=
| Ret (a : A)
| Throw (e : Err)
| Vis {X : Type} (op : Eff X) (k : X -> Prog A).
Arguments Ret {A} a.
Arguments Throw {A} e.
Arguments Vis {A X} op k.

Fixpoint bind {A B : Type} (m : Prog A) (f : A -> Prog B) : Prog B :=
  match m with
  | Ret a => f a
  | Throw e => Throw e
  | Vis op k => Vis op (fun x => bind (k x) f)
  end.

#[global] Instance Prog_ret : MRet Prog := @Ret.
#[global] Instance Prog_bind : MBind Prog := fun A B f m => bind m f.

(** Make a call and take its answer. *)
Definition perform {X : Type} (op : Eff X) : Prog X := Vis op Ret.

(** [await p]: the value of a fulfilled promise, a throw of the reason of a
    rejected one. *)
Definition await {A : Type} (p : Promise A) : Prog A :=
  match p with
  | Fulfilled a => Ret a
  | Rejected e => Throw e
  end.

(** The result of a synchronous call, inside an [async] body. *)
Definition completes {A : Type} (s : Sync A) : Prog A :=
  match s with
  | Returns a => Ret a
  | Throws e => Throw e
  end.

(** [try { m } catch (e) { h e }]. *)
Fixpoint catch {A : Type} (m : Prog A) (h : Err -> Prog A) : Prog A :=
  match m with
  | Ret a => Ret a
  | Throw e => h e
  | Vis op k => Vis op (fun x => catch (k x) h)
  end.

(** A call with its answer type forgotten, for traces. *)
Inductive Call : Type :=
| MkCall {X : Type} (op : Eff X).

(** A platform answers every call from its state [W]. *)
Record Platform (W : Type) : Type := {
  answer : forall X : Type, Eff X -> W -> X * W
}.
Arguments answer {W} p {X} op w.

(** What running an [async] function gives: the promise it returns, the
    platform state it leaves, the calls it made in order. *)
Record Run (W A : Type) : Type := mkRun {
  outcome : Promise A;
  world : W;
  calls : list Call
}.
Arguments mkRun {W A} outcome world calls.
Arguments outcome {W A} r.
Arguments world {W A} r.
Arguments calls {W A} r.

Fixpoint run {W A : Type} (P : Platform W) (m : Prog A) (w : W) : Run W A :=
  match m with
  | Ret a => mkRun (Fulfilled a) w []
  | Throw e => mkRun (Rejected e) w []
  | Vis op k =>
      let a := answer P op w in
      let r := run P (k a.1) a.2 in
      mkRun (outcome r) (world r) (MkCall op :: calls r)
  end.

(** ** The queue handler (queue-handlers/link-clicks.ts) *)

Definition handleLinkClick (event : LinkClickMessage.t) : Prog unit :=
  (p ← perform (AddLinkClick (LinkClickMessage.data event)); await p) ;;
  (p ← perform (ScheduleEvalWorfklow event); await p).

Definition is_ScheduleEvalWorfklow (c : Call) : bool :=
  match c with
  | MkCall op =>
      match op with
      | ScheduleEvalWorfklow _ => true
      | _ => false
      end
  end.


(** ** The Hono application *)

(** [c.text(text, status)]. *)
Definition text (t : string) (st : Z) : Response.t :=
  Response.mk st None t.

(** [c.redirect(location)]: Hono's default status, 302, and the [Location]
    header, which holds the location as Hono encodes it. *)
Definition redirect (encodeLocation : string -> string) (loc : string) : Response.t :=
  Response.mk 302 (Some (encodeLocation loc)) EmptyString.

(** [c.json({})]. *)
Definition json_empty : Response.t :=
  Response.mk 200 None "{}".

(** The response of Hono when no route matches. *)
Definition notFound : Response.t :=
  text "404 Not Found" 404.

(** The response of Hono's default error handler, when a handler throws. *)
Definition internalServerError : Response.t :=
  text "Internal Server Error" 500.

(** [new Response(null, response)]: what a HEAD request gets. *)
Definition without_body (r : Response.t) : Response.t :=
  Response.mk (Response.status r) (Response.location r) EmptyString.

(** Header names are case-insensitive: [Headers] keeps them lower-cased and
    [c.req.header(name)] lower-cases the name it is asked for. *)
Definition lower_ascii (c : ascii) : ascii :=
  let n := N_of_ascii c in
  if ((65 <=? n) && (n <=? 90))%N then ascii_of_N (n + 32) else c.

Fixpoint lowercase (s : string) : string :=
  match s with
  | EmptyString => EmptyString
  | String c s' => String (lower_ascii c) (lowercase s')
  end.

Definition header (req : Request.t) (name : string) : option string :=
  Request.headers req !! lowercase name.

(** [s.split(sep)] for a one-character separator. *)
Fixpoint split_on (sep : ascii) (s : string) : list string :=
  match s with
  | EmptyString => [EmptyString]
  | String c s' =>
      if bool_decide (c = sep) then EmptyString :: split_on sep s'
      else match split_on sep s' with
           | seg :: rest => String c seg :: rest
           | [] => [String c EmptyString]
           end
  end.

(** The segments of a URL path; a path starts with a slash. *)
Definition path_segments (p : string) : option (list string) :=
  match p with
  | String c rest => if bool_decide (c = "/"%char) then Some (split_on "/" rest) else None
  | EmptyString => None
  end.

(** One segment of a path: not empty, and no slash in it. *)
Fixpoint slash_free (s : string) : bool :=
  match s with
  | EmptyString => true
  | String c s' => negb (bool_decide (c = "/"%char)) && slash_free s'
  end.

Definition is_segment (s : string) : bool :=
  negb (bool_decide (s = EmptyString)) && slash_free s.

(** [/\%/.test(s)]: whether a percent sign, and so an escape, occurs. *)
Fixpoint has_percent (s : string) : bool :=
  match s with
  | EmptyString => false
  | String c s' => bool_decide (c = "%"%char) || has_percent s'
  end.

(** A route pattern: literal segments and [:name] parameters. *)
Inductive Segment : Type :=
| Lit (s : string)
| Param (name : string).

(** Match the segments of a path against a pattern.  A parameter takes one
    non-empty segment; the match gives the parameters by name, as they are
    in the path. *)
Fixpoint match_pattern (pat : list Segment) (segs : list string)
  : option (list (string * string)) :=
  match pat, segs with
  | [], [] => Some []
  | Lit s :: pat', seg :: segs' =>
      if bool_decide (seg = s) then match_pattern pat' segs' else None
  | Param name :: pat', seg :: segs' =>
      if bool_decide (seg = EmptyString) then None
      else (fun ps => (name, seg) :: ps) <$> match_pattern pat' segs'
  | _, _ => None
  end.

(** The context [c] a handler gets: the request and the route parameters. *)
Module Context.
Record t : Type := mk {
  req : Request.t;
  params : list (string * string)
}.
End Context.

(** What the application takes from the framework and from the packages of
    the repository that are missing here:
    - [decodeParam], Hono's decoding of a path parameter that has a percent
      escape in it;
    - [encodeLocation], what Hono writes into the [Location] header for the
      location given to [c.redirect];
    - [cloudflareInfoSchema.safeParse] of data-ops, of which the handler
      needs whether the parse succeeds and the parsed value;
    - [getDestinationForCountry] of helpers/route-ops, a synchronous call
      that returns the destination or throws. *)
Record Imports : Type := {
  decodeParam : string -> string;
  encodeLocation : string -> string;
  cloudflareInfoSchema_safeParse : JsValue -> option CloudflareInfo.t;
  getDestinationForCountry : LinkInfo.t -> string -> Sync string
}.

(** A path parameter as a handler reads it: a segment without a percent
    sign as it is, another one decoded. *)
Definition decoded (lib : Imports) (raw : string) : string :=
  if has_percent raw then decodeParam lib raw else raw.

(** [c.req.param(name)], for a parameter of the matched route. *)
Definition param (lib : Imports) (c : Context.t) (name : string) : string :=
  decoded lib
    (default EmptyString
       (snd <$> List.find (fun kv => bool_decide (kv.1 = name)) (Context.params c))).

Record Route : Type := mkRoute {
  route_method : string;
  route_pattern : list Segment;
  route_handler : Context.t -> Prog Response.t
}.

(** The first registered route that matches the method and the path handles
    the request; what its handler throws goes to the default error handler,
    which answers 500.  Without a match the answer is 404.  Literal segments
    are compared with the segments of the path as they are. *)
Fixpoint dispatch (routes : list Route) (method : string) (req : Request.t)
    (segs : list string) : Prog Response.t :=
  match routes with
  | [] => Ret notFound
  | r :: routes' =>
      if bool_decide (method = route_method r) then
        match match_pattern (route_pattern r) segs with
        | Some ps =>
            catch (route_handler r (Context.mk req ps))
                  (fun _ => Ret internalServerError)
        | None => dispatch routes' method req segs
        end
      else dispatch routes' method req segs
  end.

(** [app.fetch(request)]: a HEAD request is dispatched as a GET request and
    answered without the body. *)
Definition fetch (routes : list Route) (req : Request.t) : Prog Response.t :=
  match path_segments (Request.path req) with
  | Some segs =>
      if bool_decide (Request.method req = "HEAD") then
        resp ← dispatch routes "GET" req segs;
        Ret (without_body resp)
      else dispatch routes (Request.method req) req segs
  | None => Ret notFound
  end.

Section App.

Variable lib : Imports.

(** [App.get('/click-socket/:accountId', ...)] *)
Definition click_socket_handler (c : Context.t) : Prog Response.t :=
  let upgradeHeader := header (Context.req c) "Upgrade" in
  if falsy upgradeHeader || strict_neq upgradeHeader "websocket" then
    Ret (text "Expected Upgrade: websocket" 426)
  else
    let accountId := header (Context.req c) "accountId" in
    if falsy accountId then Ret (text "No Headers" 404)
    else
      let doId := idFromName LINK_CLICK_TRACKER_OBJECT (default EmptyString accountId) in
      p ← perform (StubFetch doId (Context.req c));
      await p.

(** [App.get('/do/:name', ...)] *)
Definition do_handler (c : Context.t) : Prog Response.t :=
  let name := param lib c "name" in
  let doId := idFromName EVALUATION_SCHEDULER name in
  Ret json_empty.

(** [App.get('/:id', ...)] *)
Definition redirect_handler (c : Context.t) : Prog Response.t :=
  let id := param lib c "id" in
  linkInfo ← (p ← perform (GetRoutingDestinations id); await p);
  match linkInfo with
  | None => Ret (text "Destination not found" 404)
  | Some linkInfo =>
      match cloudflareInfoSchema_safeParse lib (Request.cf (Context.req c)) with
      | None => Ret (text "Invalid Cloudflare Headers" 400)
      | Some headers =>
          destination ←
            completes (getDestinationForCountry lib linkInfo (CloudflareInfo.country headers));
          timestamp ← perform NewDateToISOString;
          let queueMessage :=
            LinkClickMessage.mk "LINK_CLICK"
              (LinkClickData.mk id
                 (CloudflareInfo.country headers)
                 destination
                 (LinkInfo.accountId linkInfo)
                 (CloudflareInfo.latitude headers)
                 (CloudflareInfo.longitude headers)
                 timestamp) in
          sent ← perform (QueueSend queueMessage (10 * 60));
          perform (WaitUntil sent) ;;
          Ret (redirect (encodeLocation lib) destination)
      end
  end.

Definition App : list Route :=
  [ mkRoute "GET" [Lit "click-socket"; Param "accountId"] click_socket_handler;
    mkRoute "GET" [Lit "do"; Param "name"] do_handler;
    mkRoute "GET" [Param "id"] redirect_handler ].

Definition App_fetch (req : Request.t) : Prog Response.t :=
  fetch App req.

End App.

(** The click message the redirect handler builds. *)
Definition click_message (id : string) (linkInfo : LinkInfo.t)
    (headers : CloudflareInfo.t) (destination timestamp : string)
  : LinkClickMessage.t :=
  LinkClickMessage.mk "LINK_CLICK"
    (LinkClickData.mk id
       (CloudflareInfo.country headers)
       destination
       (LinkInfo.accountId linkInfo)
       (CloudflareInfo.latitude headers)
       (CloudflareInfo.longitude headers)
       timestamp).

(** The messages handed to [QUEUE.send], with their delays, in order. *)
Definition queue_sends (tr : list Call) : list (LinkClickMessage.t * Z) :=
  omap (fun c =>
          match c with
          | MkCall op =>
              match op with
              | QueueSend msg delay => Some (msg, delay)
              | _ => None
              end
          end) tr.

(** ** The router (helpers/route-ops) *)

Module Router.

(** Modelled from the spec: the rule predicate of [getDestinationForCountry]
    (helpers/route-ops), which is missing here.  The predicate of a rule is
    a country; the rule matches that country code, and the country ["*"]
    matches every code. *)
Definition predicate_matches (r : DestinationRule.t) (countryCode : string) : bool :=
  bool_decide (DestinationRule.country r = "*")
  || bool_decide (DestinationRule.country r = countryCode).

(** Modelled from the spec: the routing decision of [getDestinationForCountry]
    (helpers/route-ops), which is missing here, called [resolve] in the spec.
    Rules are evaluated in list order, the first rule whose predicate
    matches the country code wins, and with no match the default
    destination is returned.  It fails only on malformed input: with no
    match and an empty default it throws [RoutingError: NoDestination]. *)
Fixpoint resolve (rules : list DestinationRule.t) (countryCode : string)
    (defaultDestination : string) : Sync string :=
  match rules with
  | [] =>
      if bool_decide (defaultDestination = EmptyString)
      then Throws "RoutingError: NoDestination"
      else Returns defaultDestination
  | r :: rules' =>
      if predicate_matches r countryCode then Returns (DestinationRule.dest r)
      else resolve rules' countryCode defaultDestination
  end.

(** Modelled from the spec: [getDestinationForCountry] (helpers/route-ops),
    which is missing here; the router as the redirect handler calls it,
    on the link's routing information and the country code. *)
Definition getDestinationForCountry (linkInfo : LinkInfo.t) (countryCode : string)
  : Sync string :=
  resolve (LinkInfo.rules linkInfo) countryCode (LinkInfo.defaultDestination linkInfo).

End Router.

(** ** The geo-signal schema *)

Module Schema.

Definition field (name : string) (fields : list (string * JsValue)) : option JsValue :=
  snd <$> List.find (fun kv => bool_decide (kv.1 = name)) fields.

(** An optional numeric field: absent, a number, or malformed. *)
Definition optional_number (v : option JsValue) : option (option number) :=
  match v with
  | None | Some JUndefined => Some None
  | Some (JNumber n) => Some (Some n)
  | Some _ => None
  end.

(** Modelled from the spec: [cloudflareInfoSchema] (data-ops), which is
    missing here.  The geo signal is well formed when it is an object with a
    country code and, where present, a numeric latitude and longitude. *)
Definition cloudflareInfoSchema_safeParse (cf : JsValue) : option CloudflareInfo.t :=
  match cf with
  | JObject fields =>
      match field "country" fields with
      | Some (JString country) =>
          lat ← optional_number (field "latitude" fields);
          lon ← optional_number (field "longitude" fields);
          Some (CloudflareInfo.mk country lat lon)
      | _ => None
      end
  | _ => None
  end.

End Schema.

(** ** A platform *)

(** The state behind the bindings of [Env]: the record store of links, the
    clock, the queue, the persisted clicks and the evaluations asked of the
    scheduler, each collaborator with a switch that makes it fail. *)
Module World.
Record t : Type := mk {
  LINKS : gmap string LinkInfo.t;
  clock : string;
  QUEUE : list (LinkClickMessage.t * Z);
  queue_available : bool;
  CLICKS : gmap string LinkClickData.t;
  storage_available : bool;
  EVALUATIONS : list LinkClickMessage.t;
  scheduler_available : bool
}.

Definition set_QUEUE (q : list (LinkClickMessage.t * Z)) (w : t) : t :=
  mk (LINKS w) (clock w) q (queue_available w) (CLICKS w) (storage_available w)
     (EVALUATIONS w) (scheduler_available w).

Definition set_CLICKS (c : gmap string LinkClickData.t) (w : t) : t :=
  mk (LINKS w) (clock w) (QUEUE w) (queue_available w) c (storage_available w)
     (EVALUATIONS w) (scheduler_available w).

Definition set_EVALUATIONS (e : list LinkClickMessage.t) (w : t) : t :=
  mk (LINKS w) (clock w) (QUEUE w) (queue_available w) (CLICKS w) (storage_available w)
     e (scheduler_available w).
End World.

(** Modelled from the spec: [getRoutingDestinations] of helpers/route-ops,
    which is missing here.  The resolver reads the routing configuration of
    a link id from the record store and has no other effect; an id that does
    not exist is not found. *)
Definition getRoutingDestinations (links : gmap string LinkInfo.t) (id : string)
  : option LinkInfo.t :=
  links !! id.

(** Modelled from the spec: [addLinkClick] of the data-ops queries, which is
    missing here.  Persistence is an upsert keyed by the event id.  The spec
    does not say how the event id is read off the message, so the key is
    left to [event_id]. *)
Definition addLinkClick (event_id : LinkClickData.t -> string)
    (info : LinkClickData.t) (clicks : gmap string LinkClickData.t)
  : gmap string LinkClickData.t :=
  <[event_id info := info]> clicks.

(** The stored records that carry a given event id. *)
Definition records_with (key : string) (clicks : gmap string LinkClickData.t)
  : list (string * LinkClickData.t) :=
  filter (fun kv => kv.1 = key) (map_to_list clicks).

(** The response of a durable object that accepts the stream upgrade. *)
Definition switching_protocols : Response.t :=
  Response.mk 101 None EmptyString.

(** How the platform answers each call.  The resolver and persistence are
    the two definitions above; the queue, the scheduler and storage answer
    with a rejected promise when they are switched off. *)
Definition edge_answer (event_id : LinkClickData.t -> string)
    (X : Type) (op : Eff X) (w : World.t) : X * World.t :=
  match op in Eff X return X * World.t with
  | GetRoutingDestinations id =>
      (Fulfilled (getRoutingDestinations (World.LINKS w) id), w)
  | NewDateToISOString => (World.clock w, w)
  | QueueSend msg delaySeconds =>
      if World.queue_available w
      then (Fulfilled (), World.set_QUEUE (World.QUEUE w ++ [(msg, delaySeconds)]) w)
      else (Rejected "QueueUnavailable", w)
  | WaitUntil _ => ((), w)
  | StubFetch _ _ => (Fulfilled switching_protocols, w)
  | AddLinkClick info =>
      if World.storage_available w
      then (Fulfilled (), World.set_CLICKS (addLinkClick event_id info (World.CLICKS w)) w)
      else (Rejected "storage unavailable", w)
  | ScheduleEvalWorfklow event =>
      if World.scheduler_available w
      then (Fulfilled (), World.set_EVALUATIONS (World.EVALUATIONS w ++ [event]) w)
      else (Rejected "scheduler unavailable", w)
  end.

Definition edge (event_id : LinkClickData.t -> string) : Platform World.t :=
  {| answer := edge_answer event_id |}.

(** The same platform while the record store of links is down: the
    resolver's read is rejected. *)
Definition store_down_answer (event_id : LinkClickData.t -> string)
    (X : Type) (op : Eff X) (w : World.t) : X * World.t :=
  match op in Eff X return X * World.t with
  | GetRoutingDestinations _ => (Rejected "record store unavailable", w)
  | op' => edge_answer event_id _ op' w
  end.

Definition store_down (event_id : LinkClickData.t -> string) : Platform World.t :=
  {| answer := store_down_answer event_id |}.

(** ** Sentences of the spec, as propositions *)

(** A scheduler failure after a successful persistence leaves the message
    handled: the promise of [handleLinkClick] is fulfilled all the same. *)
Definition scheduler_failure_isolated {W : Type} (P : Platform W) (w : W)
    (event : LinkClickMessage.t) : Prop :=
  let persisted := answer P (AddLinkClick (LinkClickMessage.data event)) w in
  forall e : Err,
    persisted.1 = Fulfilled () ->
    (answer P (ScheduleEvalWorfklow event) persisted.2).1 = Rejected e ->
    outcome (run P (handleLinkClick event) w) = Fulfilled ().

(** The subscription endpoint answers at [path] and turns away, with 426, a
    request that does not ask for the websocket upgrade. *)
Definition upgrade_required_at (worker : Request.t -> Prog Response.t) (path : string)
  : Prop :=
  forall (W : Type) (P : Platform W) (w : W) (req : Request.t),
    Request.method req = "GET" ->
    Request.path req = path ->
    header req "Upgrade" <> Some "websocket" ->
    exists resp,
      outcome (run P (worker req) w) = Fulfilled resp /\ Response.status resp = 426.

(** No response to a GET request at [path] has a status other than 302,
    404 and 400. *)
Definition only_redirect_statuses (worker : Request.t -> Prog Response.t) (path : string)
  : Prop :=
  forall (W : Type) (P : Platform W) (w : W) (req : Request.t) (resp : Response.t),
    Request.method req = "GET" ->
    Request.path req = path ->
    outcome (run P (worker req) w) = Fulfilled resp ->
    Response.status resp = 302 \/ Response.status resp = 404
    \/ Response.status resp = 400.

(** With no matching rule the router returns the default destination of the
    link. *)
Definition unmatched_returns_default (link : LinkInfo.t) (countryCode : string) : Prop :=
  Forall (fun r => Router.predicate_matches r countryCode = false) (LinkInfo.rules link) ->
  Router.getDestinationForCountry link countryCode
  = Returns (LinkInfo.defaultDestination link).

(** ** Sample data *)

Module Sample.

(** The value of a hexadecimal digit. *)
Definition hex_value (c : ascii) : option N :=
  let n := N_of_ascii c in
  if ((48 <=? n) && (n <=? 57))%N then Some (n - 48)%N
  else if ((65 <=? n) && (n <=? 70))%N then Some (n - 55)%N
  else if ((97 <=? n) && (n <=? 102))%N then Some (n - 87)%N
  else None.

(** A decoding of path parameters: the escapes of ASCII characters are
    decoded, everything else is left as it is. *)
Fixpoint decode_escapes (s : string) : string :=
  match s with
  | EmptyString => EmptyString
  | String c s' =>
      match s' with
      | String h (String l rest) =>
          match hex_value h, hex_value l with
          | Some a, Some b =>
              if bool_decide (c = "%"%char) && (a * 16 + b <? 128)%N
              then String (ascii_of_N (a * 16 + b)) (decode_escapes rest)
              else String c (decode_escapes s')
          | _, _ => String c (decode_escapes s')
          end
      | _ => String c (decode_escapes s')
      end
  end.

Fixpoint occurs_in (c : ascii) (s : string) : bool :=
  match s with
  | EmptyString => false
  | String k s' => bool_decide (c = k) || occurs_in c s'
  end.

(** The characters [encodeURI] keeps. *)
Definition uri_kept (c : ascii) : bool :=
  let n := N_of_ascii c in
  ((48 <=? n) && (n <=? 57))%N || ((65 <=? n) && (n <=? 90))%N
  || ((97 <=? n) && (n <=? 122))%N
  || occurs_in c ";,/?:@&=+$-_.!~*'()#".

Definition hex_digit (n : N) : ascii :=
  if (n <? 10)%N then ascii_of_N (48 + n) else ascii_of_N (55 + n).

(** [encodeURI] on the bytes of a string. *)
Fixpoint encodeURI (s : string) : string :=
  match s with
  | EmptyString => EmptyString
  | String c s' =>
      if uri_kept c then String c (encodeURI s')
      else
        let n := N_of_ascii c in
        String "%" (String (hex_digit (n / 16)) (String (hex_digit (n mod 16)) (encodeURI s')))
  end.

(** Whether a character above U+00FF occurs: in UTF-8, a byte from 0xC4
    on. *)
Fixpoint above_latin1 (s : string) : bool :=
  match s with
  | EmptyString => false
  | String c s' => (196 <=? N_of_ascii c)%N || above_latin1 s'
  end.

(** An encoding of locations: a location of characters up to U+00FF as it
    is, another one through [encodeURI]. *)
Definition encode_location (s : string) : string :=
  if above_latin1 s then encodeURI s else s.

(** The imports of the worker: the decoding and encoding above, and the
    schema and the router of the spec. *)
Definition lib : Imports :=
  {| decodeParam := decode_escapes;
     encodeLocation := encode_location;
     cloudflareInfoSchema_safeParse := Schema.cloudflareInfoSchema_safeParse;
     getDestinationForCountry := Router.getDestinationForCountry |}.

Definition rule_US : DestinationRule.t := DestinationRule.mk "US" "A".
Definition rule_any : DestinationRule.t := DestinationRule.mk "*" "B".

Definition link : LinkInfo.t :=
  LinkInfo.mk "acc_123" [] "https://example.com/fallback".

Definition geo_link : LinkInfo.t :=
  LinkInfo.mk "acc_456" [rule_US; rule_any] "https://example.com/fallback".

Definition world : World.t :=
  World.mk {[ "dAd5d" := link; "eFg6e" := geo_link ]} "2024-01-15T14:32:18.000Z"
    [] true ∅ true [] true.

Definition world_queue_down : World.t :=
  World.mk {[ "dAd5d" := link; "eFg6e" := geo_link ]} "2024-01-15T14:32:18.000Z"
    [] false ∅ true [] true.

Definition world_storage_down : World.t :=
  World.mk {[ "dAd5d" := link; "eFg6e" := geo_link ]} "2024-01-15T14:32:18.000Z"
    [] true ∅ false [] true.

Definition world_scheduler_down : World.t :=
  World.mk {[ "dAd5d" := link; "eFg6e" := geo_link ]} "2024-01-15T14:32:18.000Z"
    [] true ∅ true [] false.

Definition cf_US : JsValue := JObject [("country", JString "US")].
Definition info_US : CloudflareInfo.t := CloudflareInfo.mk "US" None None.

Definition visit : Request.t := Request.mk "GET" "/dAd5d" ∅ cf_US.
Definition visit_no_geo : Request.t := Request.mk "GET" "/dAd5d" ∅ JUndefined.
Definition visit_unknown : Request.t := Request.mk "GET" "/zzzzz" ∅ JUndefined.

Definition click : LinkClickData.t :=
  LinkClickData.mk "dAd5d" "US" "https://example.com/fallback" "acc_123" None None
    "2024-01-15T14:32:18.000Z".

Definition event : LinkClickMessage.t := LinkClickMessage.mk "LINK_CLICK" click.

(** An event id read off the message: the link id and the time of the
    click. *)
Definition event_id (d : LinkClickData.t) : string :=
  LinkClickData.id d +:+ "@" +:+ LinkClickData.timestamp d.

Definition subscribe (p : string) : Request.t :=
  Request.mk "GET" p {[ "upgrade" := "websocket"; "accountid" := "acc_123" ]} JUndefined.

Definition subscribe_no_account : Request.t :=
  Request.mk "GET" "/click-socket/acc_123" {[ "upgrade" := "websocket" ]} JUndefined.

Definition plain_get (p : string) : Request.t :=
  Request.mk "GET" p ∅ JUndefined.

(** The worker with these imports, on the platform above. *)
Definition worker (req : Request.t) : Prog Response.t :=
  App_fetch lib req.

Definition platform : Platform World.t := edge event_id.

(** Two visits from the same country, one of them with a position and a
    header. *)
Definition cf_DE : JsValue := JObject [("country", JString "DE")].

Definition cf_DE_positioned : JsValue :=
  JObject [("country", JString "DE");
           ("latitude", JNumber (5237 # 100)%Q);
           ("longitude", JNumber (489 # 100)%Q)].

Definition info_DE : CloudflareInfo.t := CloudflareInfo.mk "DE" None None.

Definition info_DE_positioned : CloudflareInfo.t :=
  CloudflareInfo.mk "DE" (Some (5237 # 100)%Q) (Some (489 # 100)%Q).

Definition visit_DE : Request.t := Request.mk "GET" "/eFg6e" ∅ cf_DE.

Definition visit_DE_positioned : Request.t :=
  Request.mk "GET" "/eFg6e" {[ "user-agent" := "curl/8.5.0" ]} cf_DE_positioned.

(** A visit whose path writes the last letter of the link id as an escape. *)
Definition visit_escaped : Request.t := Request.mk "GET" "/dAd5%64" ∅ cf_US.

(** A link without rules and without a default destination, and a platform
    state that has it. *)
Definition empty_link : LinkInfo.t := LinkInfo.mk "acc_789" [] EmptyString.

Definition world_empty_link : World.t :=
  World.mk {[ "gKl8g" := empty_link ]} "2024-01-15T14:32:18.000Z"
    [] true ∅ true [] true.

Definition visit_empty_link : Request.t := Request.mk "GET" "/gKl8g" ∅ cf_US.

(** The platform above while the store of links is down. *)
Definition platform_store_down : Platform World.t := store_down event_id.

End Sample.

(** ** Kinds of calls *)

(** The calls that leave the fast path of a request: a fetch of a durable
    object, a write to the persisted store, an invocation of the scheduler. *)
Definition leaves_fast_path (c : Call) : bool :=
  match c with
  | MkCall op =>
      match op with
      | StubFetch _ _ | AddLinkClick _ | ScheduleEvalWorfklow _ => true
      | _ => false
      end
  end.

(** The reads of the link store. *)
Definition is_GetRoutingDestinations (c : Call) : bool :=
  match c with
  | MkCall op =>
      match op with
      | GetRoutingDestinations _ => true
      | _ => false
      end
  end.

(** * Theorems *)

(** ** Running programs *)

Lemma run_bind {W A B : Type} (P : Platform W) (m : Prog A) (f : A -> Prog B) (w : W) :
  run P (m ≫= f) w =
  match outcome (run P m w) with
  | Fulfilled a =>
      let r := run P (f a) (world (run P m w)) in
      mkRun (outcome r) (world r) (calls (run P m w) ++ calls r)
  | Rejected e => mkRun (Rejected e) (world (run P m w)) (calls (run P m w))
  end.
Proof.
  unfold mbind, Prog_bind.
  revert w. induction m as [a | e | X op k IH]; intros w; simpl.
  - by destruct (run P (f a) w).
  - done.
  - rewrite IH. by destruct (outcome (run P (k _) _)).
Qed.

Lemma run_call_await {W A : Type} (P : Platform W) (op : Eff (Promise A)) (w : W) :
  run P (p ← perform op; await p) w =
  mkRun (answer P op w).1 (answer P op w).2 [MkCall op].
Proof.
  unfold mbind, Prog_bind, perform. simpl.
  by destruct (answer P op w).1.
Qed.

Lemma run_catch {W A : Type} (P : Platform W) (m : Prog A) (h : Err -> Prog A) (w : W) :
  run P (catch m h) w =
  match outcome (run P m w) with
  | Fulfilled _ => run P m w
  | Rejected e =>
      let r := run P (h e) (world (run P m w)) in
      mkRun (outcome r) (world r) (calls (run P m w) ++ calls r)
  end.
Proof.
  revert w. induction m as [a | e | X op k IH]; intros w; simpl.
  - done.
  - by destruct (run P (h e) w).
  - rewrite IH.
    by destruct (run P (k (answer P op w).1) (answer P op w).2) as [[a | e] w' tr].
Qed.

(** A handler under the default error handler: what it throws becomes the
    500 response, and its calls and the state it leaves are its own. *)
Lemma run_handled {W : Type} (P : Platform W) (m : Prog Response.t) (w : W) :
  run P (catch m (fun _ => Ret internalServerError)) w =
  mkRun (match outcome (run P m w) with
         | Fulfilled resp => Fulfilled resp
         | Rejected _ => Fulfilled internalServerError
         end)
        (world (run P m w)) (calls (run P m w)).
Proof.
  rewrite run_catch. destruct (run P m w) as [[resp | e] w' tr]; simpl; [done |].
  by rewrite app_nil_r.
Qed.

(** ** The worker on the sample platform *)

Example visit_redirects :
  outcome (run Sample.platform (Sample.worker Sample.visit) Sample.world)
  = Fulfilled (Response.mk 302 (Some "https://example.com/fallback") EmptyString).
Proof. vm_compute. reflexivity. Qed.

Example visit_without_geo_signal :
  outcome (run Sample.platform (Sample.worker Sample.visit_no_geo) Sample.world)
  = Fulfilled (Response.mk 400 None "Invalid Cloudflare Headers").
Proof. vm_compute. reflexivity. Qed.

Example visit_unknown_link :
  outcome (run Sample.platform (Sample.worker Sample.visit_unknown) Sample.world)
  = Fulfilled (Response.mk 404 None "Destination not found").
Proof. vm_compute. reflexivity. Qed.

Example visit_two_segments :
  outcome (run Sample.platform (Sample.worker (Sample.plain_get "/dAd5d/x")) Sample.world)
  = Fulfilled notFound.
Proof. vm_compute. reflexivity. Qed.

Example visit_escaped_letter :
  outcome (run Sample.platform (Sample.worker Sample.visit_escaped) Sample.world)
  = Fulfilled (Response.mk 302 (Some "https://example.com/fallback") EmptyString)
  /\ List.filter is_GetRoutingDestinations
       (calls (run Sample.platform (Sample.worker Sample.visit_escaped) Sample.world))
     = [MkCall (GetRoutingDestinations "dAd5d")].
Proof. vm_compute. done. Qed.

Example visit_while_store_down :
  outcome (run Sample.platform_store_down (Sample.worker Sample.visit) Sample.world)
  = Fulfilled (Response.mk 500 None "Internal Server Error").
Proof. vm_compute. reflexivity. Qed.

Example visit_link_without_destination :
  outcome (run Sample.platform (Sample.worker Sample.visit_empty_link)
             Sample.world_empty_link)
  = Fulfilled (Response.mk 500 None "Internal Server Error").
Proof. vm_compute. reflexivity. Qed.

Example head_of_unserved_path :
  outcome (run Sample.platform
             (Sample.worker (Request.mk "HEAD" "/dAd5d/x" ∅ JUndefined)) Sample.world)
  = Fulfilled (Response.mk 404 None EmptyString).
Proof. vm_compute. reflexivity. Qed.

Example do_route :
  run Sample.platform (Sample.worker (Sample.plain_get "/do/dAd5d")) Sample.world
  = mkRun (Fulfilled json_empty) Sample.world [].
Proof. vm_compute. reflexivity. Qed.

Example subscribe_without_upgrade :
  outcome (run Sample.platform (Sample.worker (Sample.plain_get "/click-socket/acc_123"))
             Sample.world)
  = Fulfilled (Response.mk 426 None "Expected Upgrade: websocket").
Proof. vm_compute. reflexivity. Qed.

Example subscribe_without_account :
  outcome (run Sample.platform (Sample.worker Sample.subscribe_no_account) Sample.world)
  = Fulfilled (Response.mk 404 None "No Headers").
Proof. vm_compute. reflexivity. Qed.

Example header_names_ignore_case :
  header (Sample.subscribe "/click-socket/acc_123") "Upgrade" = Some "websocket"
  /\ header (Sample.subscribe "/click-socket/acc_123") "accountId" = Some "acc_123".
Proof. vm_compute. done. Qed.

Example click_persisted_and_scheduled :
  let r := run Sample.platform (handleLinkClick Sample.event) Sample.world in
  outcome r = Fulfilled ()
  /\ World.CLICKS (world r) = {[ Sample.event_id Sample.click := Sample.click ]}
  /\ World.EVALUATIONS (world r) = [Sample.event].
Proof. vm_compute. done. Qed.

Example storage_down_nothing_scheduled :
  let r := run Sample.platform (handleLinkClick Sample.event) Sample.world_storage_down in
  outcome r = Rejected "storage unavailable"
  /\ World.CLICKS (world r) = ∅
  /\ World.EVALUATIONS (world r) = [].
Proof. vm_compute. done. Qed.

(** ** The queue handler *)

Lemma run_handleLinkClick {W : Type} (P : Platform W) (w : W) (event : LinkClickMessage.t) :
  let persisted := answer P (AddLinkClick (LinkClickMessage.data event)) w in
  let scheduled := answer P (ScheduleEvalWorfklow event) persisted.2 in
  run P (handleLinkClick event) w =
  match persisted.1 with
  | Fulfilled _ =>
      mkRun scheduled.1 scheduled.2
        [MkCall (AddLinkClick (LinkClickMessage.data event));
         MkCall (ScheduleEvalWorfklow event)]
  | Rejected e =>
      mkRun (Rejected e) persisted.2 [MkCall (AddLinkClick (LinkClickMessage.data event))]
  end.
Proof.
  intros persisted scheduled. unfold handleLinkClick.
  rewrite run_bind, (run_call_await P (AddLinkClick _)). simpl.
  fold persisted. destruct persisted.1 as [[] | e]; [| done].
  fold scheduled. by destruct scheduled.1.
Qed.

(** C7.  The scheduler is invoked only after persistence has completed
    successfully.  When [addLinkClick] rejects, [handleLinkClick] rejects
    with the same reason, the only call it made is the persistence call, the
    platform is left as persistence left it and no call of its trace is a
    scheduler invocation.  When [addLinkClick] fulfils, the scheduler is
    invoked once, after the persistence call and on the state persistence
    left. *)
Theorem scheduler_only_after_persistence {W : Type} (P : Platform W) (w : W)
    (event : LinkClickMessage.t) :
  let persisted := answer P (AddLinkClick (LinkClickMessage.data event)) w in
  let r := run P (handleLinkClick event) w in
  match persisted.1 with
  | Rejected e =>
      outcome r = Rejected e
      /\ calls r = [MkCall (AddLinkClick (LinkClickMessage.data event))]
      /\ List.filter is_ScheduleEvalWorfklow (calls r) = []
      /\ world r = persisted.2
  | Fulfilled _ =>
      calls r = [MkCall (AddLinkClick (LinkClickMessage.data event));
                 MkCall (ScheduleEvalWorfklow event)]
      /\ outcome r = (answer P (ScheduleEvalWorfklow event) persisted.2).1
      /\ world r = (answer P (ScheduleEvalWorfklow event) persisted.2).2
  end.
Proof.
  intros persisted r. subst r. rewrite run_handleLinkClick. fold persisted.
  destruct persisted.1 as [[] | e]; simpl; auto.
Qed.

(** C2, as the code has it.  When persistence succeeds and the scheduler
    invocation then fails, [handleLinkClick] fails as a whole: its promise is
    rejected with the scheduler's reason.  Both calls were made, in order,
    and the platform is left as the scheduler left it after persistence: what
    was persisted is not undone.  There is no separate result for the
    evaluation trigger. *)
Theorem scheduler_failure_rejects_handler {W : Type} (P : Platform W) (w : W)
    (event : LinkClickMessage.t) (e : Err) :
  let persisted := answer P (AddLinkClick (LinkClickMessage.data event)) w in
  let scheduled := answer P (ScheduleEvalWorfklow event) persisted.2 in
  persisted.1 = Fulfilled () ->
  scheduled.1 = Rejected e ->
  let r := run P (handleLinkClick event) w in
  outcome r = Rejected e
  /\ calls r = [MkCall (AddLinkClick (LinkClickMessage.data event));
                MkCall (ScheduleEvalWorfklow event)]
  /\ world r = scheduled.2.
Proof.
  intros persisted scheduled Hp Hs r. subst r.
  rewrite run_handleLinkClick. fold persisted scheduled.
  rewrite Hp. simpl. by rewrite Hs.
Qed.

Lemma scheduler_failure_rejects_handler_witness :
  let r := run (edge Sample.event_id) (handleLinkClick Sample.event)
               Sample.world_scheduler_down in
  outcome r = Rejected "scheduler unavailable"
  /\ calls r = [MkCall (AddLinkClick Sample.click);
                MkCall (ScheduleEvalWorfklow Sample.event)]
  /\ World.CLICKS (world r) !! Sample.event_id Sample.click = Some Sample.click.
Proof.
  destruct (scheduler_failure_rejects_handler (edge Sample.event_id)
              Sample.world_scheduler_down Sample.event "scheduler unavailable")
    as (Ho & Hc & Hw); [reflexivity | reflexivity |].
  split; [exact Ho |]. split; [exact Hc |].
  rewrite Hw. vm_compute. reflexivity.
Defined.

(** C2, as the spec words it, fails: with the scheduler down and storage up,
    persistence succeeds, the scheduler call is rejected, and the promise of
    [handleLinkClick] is rejected too. *)
Lemma scheduler_failure_not_isolated :
  ~ scheduler_failure_isolated (edge Sample.event_id) Sample.world_scheduler_down
      Sample.event.
Proof.
  intros H.
  specialize (H "scheduler unavailable" eq_refl eq_refl).
  vm_compute in H. discriminate H.
Qed.

(** ** The persisted store *)

Lemma filter_none {A : Type} (P : A -> Prop) `{!forall x, Decision (P x)} (l : list A) :
  Forall (fun x => ~ P x) l -> filter P l = [].
Proof.
  induction 1 as [| x l Hx _ IH]; [done |].
  by rewrite filter_cons_False.
Qed.

Lemma records_with_lookup (clicks : gmap string LinkClickData.t) (key : string)
    (d : LinkClickData.t) :
  clicks !! key = Some d -> records_with key clicks = [(key, d)].
Proof.
  intros Hk. unfold records_with.
  symmetry. apply Permutation_singleton_l.
  rewrite <- (map_to_list_delete clicks key d Hk).
  rewrite filter_cons_True by done.
  apply Permutation_cons; [done |].
  replace (filter _ (map_to_list (delete key clicks))) with (@nil (string * LinkClickData.t));
    [done |].
  symmetry. apply filter_none, Forall_forall.
  intros [k' d'] Hin%elem_of_map_to_list Heq. simpl in Heq. subst k'.
  by rewrite lookup_delete_eq in Hin.
Qed.

Lemma edge_handleLinkClick_persists (event_id : LinkClickData.t -> string) (w : World.t)
    (event : LinkClickMessage.t) :
  World.storage_available w = true ->
  let w' := world (run (edge event_id) (handleLinkClick event) w) in
  World.CLICKS w' = addLinkClick event_id (LinkClickMessage.data event) (World.CLICKS w)
  /\ World.storage_available w' = true.
Proof.
  intros Hs w'. subst w'. rewrite run_handleLinkClick. simpl.
  rewrite Hs. simpl. by destruct (World.scheduler_available w).
Qed.

(** C6.  With [addLinkClick] the upsert keyed by event id of the spec,
    handling the same click event twice through [handleLinkClick] stores what
    handling it once stores: after the second delivery the store is the store
    after the first, there is exactly one record with the event's id, it is
    the event, and against the store before the first delivery the number of
    records grew by one if the id was new and not at all if it was there.
    This is so whatever the scheduler does with the event. *)
Theorem persistence_idempotent (event_id : LinkClickData.t -> string) (w : World.t)
    (event : LinkClickMessage.t) :
  World.storage_available w = true ->
  let key := event_id (LinkClickMessage.data event) in
  let w1 := world (run (edge event_id) (handleLinkClick event) w) in
  let w2 := world (run (edge event_id) (handleLinkClick event) w1) in
  World.CLICKS w2 = World.CLICKS w1
  /\ records_with key (World.CLICKS w2) = [(key, LinkClickMessage.data event)]
  /\ size (World.CLICKS w2) = size (World.CLICKS w1)
  /\ size (World.CLICKS w2) =
       match World.CLICKS w !! key with
       | Some _ => size (World.CLICKS w)
       | None => S (size (World.CLICKS w))
       end.
Proof.
  intros Hs key w1 w2.
  destruct (edge_handleLinkClick_persists event_id w event Hs) as [H1 Hs1].
  fold w1 in H1, Hs1.
  destruct (edge_handleLinkClick_persists event_id w1 event Hs1) as [H2 _].
  fold w2 in H2.
  assert (World.CLICKS w2 = World.CLICKS w1) as Heq.
  { rewrite H2, H1. unfold addLinkClick. apply insert_insert_eq. }
  split; [exact Heq |].
  split.
  { apply records_with_lookup. rewrite Heq, H1. apply lookup_insert_eq. }
  split; [by rewrite Heq |].
  rewrite Heq, H1. unfold addLinkClick. rewrite map_size_insert. fold key.
  by destruct (World.CLICKS w !! key).
Qed.

Lemma persistence_idempotent_witness :
  let w1 := world (run (edge Sample.event_id) (handleLinkClick Sample.event) Sample.world) in
  let w2 := world (run (edge Sample.event_id) (handleLinkClick Sample.event) w1) in
  World.CLICKS w2 = World.CLICKS w1
  /\ records_with (Sample.event_id Sample.click) (World.CLICKS w2)
     = [(Sample.event_id Sample.click, Sample.click)]
  /\ size (World.CLICKS w2) = 1%nat.
Proof.
  destruct (persistence_idempotent Sample.event_id Sample.world Sample.event eq_refl)
    as (H1 & H2 & _ & H4).
  split; [exact H1 |]. split; [exact H2 |]. exact H4.
Defined.

(** ** The router *)

Lemma resolve_skips (pre rest : list DestinationRule.t) (c d : string) :
  Forall (fun r => Router.predicate_matches r c = false) pre ->
  Router.resolve (pre ++ rest) c d = Router.resolve rest c d.
Proof.
  induction 1 as [| r pre Hr _ IH]; simpl; [done |].
  by rewrite Hr.
Qed.

Lemma wildcard_matches (r : DestinationRule.t) (c : string) :
  DestinationRule.country r = "*" -> Router.predicate_matches r c = true.
Proof. intros H. unfold Router.predicate_matches. by rewrite H. Qed.

(** C4, as the router of the spec has it.  For a link with rules [R] and
    default destination [d] and a country code [c], the router returns the
    destination of the first rule of [R] that matches [c], that is of a
    matching rule with no matching rule before it in the list, whatever
    comes after it.  With no matching rule it returns [d] when [d] is not
    empty, and throws RoutingError: NoDestination when [d] is empty.  For
    the rules US to A, then any country to B: US gives A and DE gives B. *)
Theorem first_match_wins (link : LinkInfo.t) (c : string) :
  let R := LinkInfo.rules link in
  let d := LinkInfo.defaultDestination link in
  (forall pre r post,
      R = pre ++ r :: post ->
      Forall (fun r' => Router.predicate_matches r' c = false) pre ->
      Router.predicate_matches r c = true ->
      Router.getDestinationForCountry link c = Returns (DestinationRule.dest r))
  /\ (Forall (fun r' => Router.predicate_matches r' c = false) R ->
      d <> EmptyString ->
      Router.getDestinationForCountry link c = Returns d)
  /\ (Forall (fun r' => Router.predicate_matches r' c = false) R ->
      d = EmptyString ->
      Router.getDestinationForCountry link c = Throws "RoutingError: NoDestination")
  /\ (R = [DestinationRule.mk "US" "A"; DestinationRule.mk "*" "B"] ->
      (c = "US" -> Router.getDestinationForCountry link c = Returns "A")
      /\ (c = "DE" -> Router.getDestinationForCountry link c = Returns "B")).
Proof.
  intros R d. unfold Router.getDestinationForCountry. fold R d.
  split; [| split; [| split]].
  - intros pre r post -> Hpre Hr.
    rewrite resolve_skips by done. simpl. by rewrite Hr.
  - intros Hnone Hd.
    rewrite <- (app_nil_r R), resolve_skips by done. simpl.
    by rewrite bool_decide_eq_false_2.
  - intros Hnone Hd.
    rewrite <- (app_nil_r R), resolve_skips by done. simpl.
    by rewrite bool_decide_eq_true_2.
  - intros ->. split; intros ->; reflexivity.
Qed.

Lemma first_match_wins_witness :
  Router.getDestinationForCountry Sample.geo_link "DE" = Returns "B"
  /\ Router.getDestinationForCountry Sample.geo_link "US" = Returns "A"
  /\ Router.getDestinationForCountry Sample.link "US"
     = Returns "https://example.com/fallback"
  /\ Router.getDestinationForCountry Sample.empty_link "US"
     = Throws "RoutingError: NoDestination".
Proof.
  split; [| split; [| split]].
  - apply (proj1 (first_match_wins Sample.geo_link "DE")
             [Sample.rule_US] Sample.rule_any []);
      [reflexivity | | reflexivity].
    repeat constructor.
  - apply (proj1 (proj2 (proj2 (proj2 (first_match_wins Sample.geo_link "US"))) eq_refl)).
    reflexivity.
  - apply (proj1 (proj2 (first_match_wins Sample.link "US"))); [constructor | discriminate].
  - apply (proj1 (proj2 (proj2 (first_match_wins Sample.empty_link "US"))));
      [constructor | reflexivity].
Defined.

(** C4, as the claim words it, fails on the router of the spec: a link with
    no rule and an empty default destination has no matching rule, and the
    router does not return the default, it throws. *)
Lemma unmatched_default_may_be_missing :
  ~ unmatched_returns_default Sample.empty_link "US".
Proof.
  intros H. assert (Hnone := H (List.Forall_nil _)). discriminate Hnone.
Qed.

(** ** Routing *)

Lemma split_on_slash_free (s : string) :
  slash_free s = true -> split_on "/" s = [s].
Proof.
  induction s as [| c s IH]; simpl; [done |].
  intros [Hc Hs]%andb_prop. rewrite IH by done.
  by destruct (bool_decide (c = "/"%char)).
Qed.

Lemma split_on_prefix (a b : string) :
  slash_free a = true -> split_on "/" (a +:+ "/" +:+ b) = a :: split_on "/" b.
Proof.
  induction a as [| c a IH]; simpl; [done |].
  intros [Hc Ha]%andb_prop. rewrite IH by done.
  by destruct (bool_decide (c = "/"%char)).
Qed.

Lemma split_on_nonempty (s : string) :
  exists seg segs, split_on "/" s = seg :: segs.
Proof.
  destruct s as [| c s]; simpl; [by eauto |].
  destruct (bool_decide (c = "/"%char)); [by eauto |].
  destruct (split_on "/" s); by eauto.
Qed.

Lemma is_segment_nonempty (s : string) : is_segment s = true -> s <> EmptyString.
Proof.
  unfold is_segment. intros [H _]%andb_prop.
  by apply negb_true_iff, bool_decide_eq_false in H.
Qed.

Lemma is_segment_slash_free (s : string) : is_segment s = true -> slash_free s = true.
Proof. unfold is_segment. by intros [_ H]%andb_prop. Qed.

Section Routing.

Variable lib : Imports.

(** [GET /{segment}] reaches the redirect handler with the segment as its
    parameter, under the default error handler. *)
Lemma fetch_link (req : Request.t) (segment : string) :
  Request.method req = "GET" ->
  Request.path req = "/" +:+ segment ->
  is_segment segment = true ->
  App_fetch lib req =
  catch (redirect_handler lib (Context.mk req [("id", segment)]))
        (fun _ => Ret internalServerError).
Proof.
  intros Hm Hp Hid. unfold App_fetch, fetch. rewrite Hp. simpl.
  rewrite split_on_slash_free by by apply is_segment_slash_free.
  rewrite Hm. simpl.
  rewrite (bool_decide_eq_false_2 (segment = EmptyString)) by by apply is_segment_nonempty.
  simpl. by repeat case_bool_decide.
Qed.

(** [GET /click-socket/{seg}] reaches the click-socket handler. *)
Lemma fetch_click_socket (req : Request.t) (seg : string) :
  Request.method req = "GET" ->
  Request.path req = "/click-socket/" +:+ seg ->
  is_segment seg = true ->
  App_fetch lib req =
  catch (click_socket_handler (Context.mk req [("accountId", seg)]))
        (fun _ => Ret internalServerError).
Proof.
  intros Hm Hp Hseg. unfold App_fetch, fetch. rewrite Hp.
  change (path_segments ("/click-socket/" +:+ seg))
    with (Some (split_on "/" ("click-socket" +:+ "/" +:+ seg))).
  rewrite split_on_prefix by reflexivity.
  rewrite split_on_slash_free by by apply is_segment_slash_free.
  rewrite Hm. simpl.
  by rewrite (bool_decide_eq_false_2 (seg = EmptyString)) by by apply is_segment_nonempty.
Qed.

(** [GET /do/{name}] reaches the handler of the do route. *)
Lemma fetch_do (req : Request.t) (name : string) :
  Request.method req = "GET" ->
  Request.path req = "/do/" +:+ name ->
  is_segment name = true ->
  App_fetch lib req = Ret json_empty.
Proof.
  intros Hm Hp Hname. unfold App_fetch, fetch. rewrite Hp.
  change (path_segments ("/do/" +:+ name))
    with (Some (split_on "/" ("do" +:+ "/" +:+ name))).
  rewrite split_on_prefix by reflexivity.
  rewrite split_on_slash_free by by apply is_segment_slash_free.
  rewrite Hm. simpl.
  by rewrite (bool_decide_eq_false_2 (name = EmptyString)) by by apply is_segment_nonempty.
Qed.

(** A path of two or more segments whose first segment is neither
    [click-socket] nor [do] matches no route, whatever the method. *)
Lemma dispatch_nested (method : string) (req : Request.t) (first seg : string)
    (segs : list string) :
  first <> "click-socket" ->
  first <> "do" ->
  dispatch (App lib) method req (first :: seg :: segs) = Ret notFound.
Proof.
  intros Hsocket Hdo. simpl.
  rewrite (bool_decide_eq_false_2 (first = "click-socket")) by done.
  rewrite (bool_decide_eq_false_2 (first = "do")) by done.
  case_bool_decide; [| done].
  case_bool_decide; [done |]. simpl. by destruct segs.
Qed.

(** No route is registered under [/click-stream/]. *)
Lemma fetch_click_stream (req : Request.t) (rest : string) :
  Request.method req = "GET" ->
  Request.path req = "/click-stream/" +:+ rest ->
  App_fetch lib req = Ret notFound.
Proof.
  intros Hm Hp. unfold App_fetch, fetch. rewrite Hp.
  change (path_segments ("/click-stream/" +:+ rest))
    with (Some (split_on "/" ("click-stream" +:+ "/" +:+ rest))).
  rewrite split_on_prefix by reflexivity.
  destruct (split_on_nonempty rest) as (seg & segs & ->).
  rewrite Hm. rewrite bool_decide_eq_false_2 by done.
  by apply dispatch_nested.
Qed.

End Routing.

(** ** The redirect route *)

Section Redirect.

Variable lib : Imports.

(** Every run of the worker on [GET /{segment}], by what the resolver
    answers for the decoded id, whether the geo signal parses and what the
    router gives. *)
Lemma run_redirect {W : Type} (P : Platform W) (w : W) (req : Request.t)
    (segment : string) :
  Request.method req = "GET" ->
  Request.path req = "/" +:+ segment ->
  is_segment segment = true ->
  let id := decoded lib segment in
  let resolved := answer P (GetRoutingDestinations id) w in
  run P (App_fetch lib req) w =
  match resolved.1 with
  | Rejected e =>
      mkRun (Fulfilled internalServerError) resolved.2 [MkCall (GetRoutingDestinations id)]
  | Fulfilled None =>
      mkRun (Fulfilled (text "Destination not found" 404)) resolved.2
        [MkCall (GetRoutingDestinations id)]
  | Fulfilled (Some link) =>
      match cloudflareInfoSchema_safeParse lib (Request.cf req) with
      | None =>
          mkRun (Fulfilled (text "Invalid Cloudflare Headers" 400)) resolved.2
            [MkCall (GetRoutingDestinations id)]
      | Some info =>
          match getDestinationForCountry lib link (CloudflareInfo.country info) with
          | Throws _ =>
              mkRun (Fulfilled internalServerError) resolved.2
                [MkCall (GetRoutingDestinations id)]
          | Returns destination =>
              let now := answer P NewDateToISOString resolved.2 in
              let msg := click_message id link info destination now.1 in
              let sent := answer P (QueueSend msg 600) now.2 in
              let waiting := answer P (WaitUntil sent.1) sent.2 in
              mkRun (Fulfilled (redirect (encodeLocation lib) destination)) waiting.2
                [MkCall (GetRoutingDestinations id); MkCall NewDateToISOString;
                 MkCall (QueueSend msg 600); MkCall (WaitUntil sent.1)]
          end
      end
  end.
Proof.
  intros Hm Hp Hid id resolved.
  rewrite (fetch_link lib req segment Hm Hp Hid), run_handled.
  unfold redirect_handler, param. simpl. fold id. fold resolved.
  destruct resolved.1 as [[link |] | e]; simpl; [| done | done].
  destruct (cloudflareInfoSchema_safeParse lib (Request.cf req)) as [info |]; simpl;
    [| done].
  by destruct (getDestinationForCountry lib link (CloudflareInfo.country info)).
Qed.

(** C1, as the code has it.  For every request [GET /{linkId}], the link id
    being the segment as [c.req.param] gives it: when the link id resolves,
    the geo signal parses and the router returns a destination, the response
    is a 302 redirect to that destination; when the link id is unknown, the
    response is 404; when the link id resolves and the geo signal fails
    validation, the response is 400; when the resolver's read is rejected,
    or the router throws, the handler does not catch it and the response is
    the framework's 500.  There is always a response, and its status is one
    of 302, 404, 400 and 500. *)
Theorem redirect_statuses {W : Type} (P : Platform W) (w : W) (req : Request.t)
    (segment : string) :
  Request.method req = "GET" ->
  Request.path req = "/" +:+ segment ->
  is_segment segment = true ->
  let linkId := decoded lib segment in
  let resolved := (answer P (GetRoutingDestinations linkId) w).1 in
  let resp := outcome (run P (App_fetch lib req) w) in
  (forall link info destination,
      resolved = Fulfilled (Some link) ->
      cloudflareInfoSchema_safeParse lib (Request.cf req) = Some info ->
      getDestinationForCountry lib link (CloudflareInfo.country info)
      = Returns destination ->
      exists r, resp = Fulfilled r /\ Response.status r = 302
                /\ Response.location r = Some (encodeLocation lib destination))
  /\ (resolved = Fulfilled None ->
      exists r, resp = Fulfilled r /\ Response.status r = 404)
  /\ (forall link,
      resolved = Fulfilled (Some link) ->
      cloudflareInfoSchema_safeParse lib (Request.cf req) = None ->
      exists r, resp = Fulfilled r /\ Response.status r = 400)
  /\ (forall e,
      resolved = Rejected e ->
      exists r, resp = Fulfilled r /\ Response.status r = 500)
  /\ (forall link info e,
      resolved = Fulfilled (Some link) ->
      cloudflareInfoSchema_safeParse lib (Request.cf req) = Some info ->
      getDestinationForCountry lib link (CloudflareInfo.country info) = Throws e ->
      exists r, resp = Fulfilled r /\ Response.status r = 500)
  /\ (exists r, resp = Fulfilled r
                /\ (Response.status r = 302 \/ Response.status r = 404
                    \/ Response.status r = 400 \/ Response.status r = 500)).
Proof.
  intros Hm Hp Hid linkId resolved resp. subst resp.
  rewrite (run_redirect P w req segment Hm Hp Hid).
  fold linkId. fold resolved.
  split; [| split; [| split; [| split; [| split]]]].
  - intros link info destination -> -> ->. simpl. eauto.
  - intros ->. simpl. eauto.
  - intros link -> ->. simpl. eauto.
  - intros e ->. simpl. eauto.
  - intros link info e -> -> ->. simpl. eauto.
  - destruct resolved as [[link |] | e]; [| simpl; by eauto 7 | simpl; by eauto 7].
    destruct (cloudflareInfoSchema_safeParse lib (Request.cf req)) as [info |];
      [| simpl; by eauto 7].
    destruct (getDestinationForCountry lib link (CloudflareInfo.country info));
      simpl; eauto 7.
Qed.

(** C9.  The link is looked up before the geo signal is validated: for a
    request [GET /{linkId}] whose link id, as [c.req.param] gives it, is
    unknown, the response is 404 whatever the geo signal is, after the
    resolver call and nothing else; and a 400 is only ever the response for
    a link id that resolved and a geo signal that failed validation. *)
Theorem link_check_precedes_geo_validation {W : Type} (P : Platform W) (w : W)
    (req : Request.t) (segment : string) :
  Request.method req = "GET" ->
  Request.path req = "/" +:+ segment ->
  is_segment segment = true ->
  let linkId := decoded lib segment in
  let r := run P (App_fetch lib req) w in
  ((answer P (GetRoutingDestinations linkId) w).1 = Fulfilled None ->
   outcome r = Fulfilled (text "Destination not found" 404)
   /\ calls r = [MkCall (GetRoutingDestinations linkId)])
  /\ (forall resp,
       outcome r = Fulfilled resp -> Response.status resp = 400 ->
       exists link,
         (answer P (GetRoutingDestinations linkId) w).1 = Fulfilled (Some link)
         /\ cloudflareInfoSchema_safeParse lib (Request.cf req) = None).
Proof.
  intros Hm Hp Hid linkId r. subst r.
  rewrite (run_redirect P w req segment Hm Hp Hid). fold linkId.
  split.
  - intros ->. done.
  - intros resp.
    destruct (answer P (GetRoutingDestinations linkId) w).1 as [[link |] | e];
      [| simpl; intros [= <-]; done | simpl; intros [= <-]; done].
    destruct (cloudflareInfoSchema_safeParse lib (Request.cf req)) as [info |]; simpl.
    + destruct (getDestinationForCountry lib link (CloudflareInfo.country info));
        simpl; intros [= <-]; done.
    + eauto.
Qed.

(** C3.  For a request [GET /{linkId}] whose link resolves and whose geo
    signal parses, two runs on any two platforms (one whose queue accepts
    the message, one whose queue rejects it or is down) give the same
    response, and when the router returns a destination it is the 302
    redirect to it.  In each run the promise of [QUEUE.send], fulfilled or
    rejected, is handed to [waitUntil] and never awaited; it is the last
    thing the handler does before it responds. *)
Theorem redirect_independent_of_queue {W1 W2 : Type} (P1 : Platform W1)
    (P2 : Platform W2) (w1 : W1) (w2 : W2) (req : Request.t) (segment : string)
    (link : LinkInfo.t) (info : CloudflareInfo.t) :
  Request.method req = "GET" ->
  Request.path req = "/" +:+ segment ->
  is_segment segment = true ->
  let linkId := decoded lib segment in
  (answer P1 (GetRoutingDestinations linkId) w1).1 = Fulfilled (Some link) ->
  (answer P2 (GetRoutingDestinations linkId) w2).1 = Fulfilled (Some link) ->
  cloudflareInfoSchema_safeParse lib (Request.cf req) = Some info ->
  let r1 := run P1 (App_fetch lib req) w1 in
  let r2 := run P2 (App_fetch lib req) w2 in
  outcome r1 = outcome r2
  /\ forall destination,
      getDestinationForCountry lib link (CloudflareInfo.country info)
      = Returns destination ->
      outcome r1 = Fulfilled (redirect (encodeLocation lib) destination)
      /\ (exists msg sent, calls r1 =
            [MkCall (GetRoutingDestinations linkId); MkCall NewDateToISOString;
             MkCall (QueueSend msg 600); MkCall (WaitUntil sent)]
            /\ sent = (answer P1 (QueueSend msg 600)
                         (answer P1 NewDateToISOString
                            (answer P1 (GetRoutingDestinations linkId) w1).2).2).1)
      /\ (exists msg sent, calls r2 =
            [MkCall (GetRoutingDestinations linkId); MkCall NewDateToISOString;
             MkCall (QueueSend msg 600); MkCall (WaitUntil sent)]
            /\ sent = (answer P2 (QueueSend msg 600)
                         (answer P2 NewDateToISOString
                            (answer P2 (GetRoutingDestinations linkId) w2).2).2).1).
Proof.
  intros Hm Hp Hid linkId H1 H2 Hcf r1 r2. subst r1 r2.
  rewrite !(run_redirect _ _ req segment Hm Hp Hid).
  fold linkId. rewrite H1, H2, Hcf.
  split.
  - by destruct (getDestinationForCountry lib link (CloudflareInfo.country info)).
  - intros destination ->. simpl. eauto 10.
Qed.


End Redirect.

Lemma redirect_statuses_witness :
  let resp := outcome (run Sample.platform (Sample.worker Sample.visit) Sample.world) in
  exists r, resp = Fulfilled r /\ Response.status r = 302
            /\ Response.location r = Some "https://example.com/fallback".
Proof.
  destruct (redirect_statuses Sample.lib Sample.platform Sample.world
              Sample.visit "dAd5d" eq_refl eq_refl eq_refl)
    as (H302 & _).
  exact (H302 Sample.link Sample.info_US "https://example.com/fallback"
           eq_refl eq_refl eq_refl).
Defined.

(** C1, as the claim words it, fails: while the store of links is down the
    resolver's read is rejected, the handler does not catch it, and the
    visitor of a link gets a 500. *)
Lemma store_failure_answers_500 :
  ~ only_redirect_statuses Sample.worker "/dAd5d".
Proof.
  intros H.
  specialize (H World.t Sample.platform_store_down Sample.world Sample.visit
                internalServerError eq_refl eq_refl eq_refl).
  destruct H as [H | [H | H]]; discriminate H.
Qed.

Lemma link_check_precedes_geo_validation_witness :
  let r := run Sample.platform (Sample.worker Sample.visit_unknown) Sample.world in
  Schema.cloudflareInfoSchema_safeParse (Request.cf Sample.visit_unknown) = None
  /\ outcome r = Fulfilled (text "Destination not found" 404)
  /\ calls r = [MkCall (GetRoutingDestinations "zzzzz")].
Proof.
  split; [reflexivity |].
  apply (link_check_precedes_geo_validation Sample.lib Sample.platform Sample.world
           Sample.visit_unknown "zzzzz" eq_refl eq_refl eq_refl).
  reflexivity.
Defined.

Lemma redirect_independent_of_queue_witness :
  let r1 := run Sample.platform (Sample.worker Sample.visit) Sample.world in
  let r2 := run Sample.platform (Sample.worker Sample.visit) Sample.world_queue_down in
  outcome r1 = outcome r2
  /\ outcome r1
     = Fulfilled (redirect Sample.encode_location "https://example.com/fallback").
Proof.
  destruct (redirect_independent_of_queue Sample.lib Sample.platform Sample.platform
              Sample.world Sample.world_queue_down Sample.visit "dAd5d"
              Sample.link Sample.info_US
              eq_refl eq_refl eq_refl eq_refl eq_refl eq_refl)
    as (Hsame & Hdest).
  split; [exact Hsame |].
  exact (proj1 (Hdest "https://example.com/fallback" eq_refl)).
Defined.


(** On the sample platform the message of a redirect is in the queue when the
    queue is up, with its delay, and the queue is as it was when it is
    down; the response is the same. *)
Lemma redirect_enqueues_on_edge :
  let up := run Sample.platform (Sample.worker Sample.visit) Sample.world in
  let down := run Sample.platform (Sample.worker Sample.visit) Sample.world_queue_down in
  World.QUEUE (world up) = [(Sample.event, 600)]
  /\ World.QUEUE (world down) = []
  /\ outcome up = outcome down.
Proof. vm_compute. done. Qed.

(** ** The click-socket route *)

Section ClickSocket.

Variable lib : Imports.

Lemma run_click_socket_handler {W : Type} (P : Platform W) (w : W) (c : Context.t) :
  let req := Context.req c in
  run P (click_socket_handler c) w =
  if bool_decide (header req "Upgrade" = Some "websocket") then
    match header req "accountId" with
    | Some accountId =>
        if bool_decide (accountId = EmptyString) then
          mkRun (Fulfilled (text "No Headers" 404)) w []
        else
          let doId := idFromName LINK_CLICK_TRACKER_OBJECT accountId in
          let fetched := answer P (StubFetch doId req) w in
          mkRun fetched.1 fetched.2 [MkCall (StubFetch doId req)]
    | None => mkRun (Fulfilled (text "No Headers" 404)) w []
    end
  else mkRun (Fulfilled (text "Expected Upgrade: websocket" 426)) w [].
Proof.
  intros req. unfold click_socket_handler. fold req.
  destruct (header req "Upgrade") as [up |]; [| done].
  simpl falsy. simpl strict_neq.
  destruct (decide (up = "websocket")) as [-> | Hne].
  - rewrite (bool_decide_eq_false_2 ("websocket" = EmptyString)) by done.
    rewrite (bool_decide_eq_true_2 ("websocket" = "websocket")) by done.
    rewrite (bool_decide_eq_true_2 (Some "websocket" = Some "websocket")) by done.
    simpl orb. cbv iota.
    destruct (header req "accountId") as [acct |]; [| done].
    simpl falsy. case_bool_decide; [done |].
    simpl default. by rewrite (run_call_await P (StubFetch _ _)).
  - rewrite (bool_decide_eq_false_2 (up = "websocket")) by done.
    rewrite (bool_decide_eq_false_2 (Some up = Some "websocket")) by congruence.
    by rewrite orb_true_r.
Qed.

(** Every run of the worker on [GET /click-socket/{seg}]. *)
Lemma run_click_socket {W : Type} (P : Platform W) (w : W) (req : Request.t)
    (seg : string) :
  Request.method req = "GET" ->
  Request.path req = "/click-socket/" +:+ seg ->
  is_segment seg = true ->
  run P (App_fetch lib req) w =
  if bool_decide (header req "Upgrade" = Some "websocket") then
    match header req "accountId" with
    | Some accountId =>
        if bool_decide (accountId = EmptyString) then
          mkRun (Fulfilled (text "No Headers" 404)) w []
        else
          let doId := idFromName LINK_CLICK_TRACKER_OBJECT accountId in
          let fetched := answer P (StubFetch doId req) w in
          mkRun (match fetched.1 with
                 | Fulfilled resp => Fulfilled resp
                 | Rejected _ => Fulfilled internalServerError
                 end)
                fetched.2 [MkCall (StubFetch doId req)]
    | None => mkRun (Fulfilled (text "No Headers" 404)) w []
    end
  else mkRun (Fulfilled (text "Expected Upgrade: websocket" 426)) w [].
Proof.
  intros Hm Hp Hseg.
  rewrite (fetch_click_socket lib req seg Hm Hp Hseg), run_handled,
    run_click_socket_handler.
  simpl Context.req.
  case_bool_decide; [| done].
  destruct (header req "accountId") as [acct |]; [| done].
  by case_bool_decide.
Qed.

(** C8, as the code has it.  The subscription endpoint is served at
    [GET /click-socket/{accountId}].  For every request to it: without an
    [Upgrade] header equal to websocket the response is 426 and nothing is
    called; with it, and with the [accountId] header absent or empty, the
    response is 404 and nothing is called; with both, the request is handed
    to the tracker object named by the [accountId] header, and the response
    that object answers is the response (the framework's 500 when its fetch
    is rejected). *)
Theorem click_socket_endpoint {W : Type} (P : Platform W) (w : W) (req : Request.t)
    (seg : string) :
  Request.method req = "GET" ->
  Request.path req = "/click-socket/" +:+ seg ->
  is_segment seg = true ->
  let r := run P (App_fetch lib req) w in
  (header req "Upgrade" <> Some "websocket" ->
   outcome r = Fulfilled (text "Expected Upgrade: websocket" 426) /\ calls r = [])
  /\ (header req "Upgrade" = Some "websocket" ->
      header req "accountId" = None \/ header req "accountId" = Some EmptyString ->
      outcome r = Fulfilled (text "No Headers" 404) /\ calls r = [])
  /\ (forall acct,
      header req "Upgrade" = Some "websocket" ->
      header req "accountId" = Some acct ->
      acct <> EmptyString ->
      let doId := idFromName LINK_CLICK_TRACKER_OBJECT acct in
      calls r = [MkCall (StubFetch doId req)]
      /\ (forall resp,
           (answer P (StubFetch doId req) w).1 = Fulfilled resp ->
           outcome r = Fulfilled resp)
      /\ (forall e,
           (answer P (StubFetch doId req) w).1 = Rejected e ->
           outcome r = Fulfilled internalServerError)).
Proof.
  intros Hm Hp Hseg r. subst r.
  rewrite (run_click_socket P w req seg Hm Hp Hseg).
  split; [| split].
  - intros Hup. by rewrite bool_decide_eq_false_2.
  - intros -> [-> | ->]; done.
  - intros acct -> -> Hacct. rewrite bool_decide_eq_true_2 by done.
    rewrite bool_decide_eq_false_2 by done. simpl.
    split; [done |]. split; [by intros resp -> | by intros e ->].
Qed.

(** C10.  The tracker object is named by the [accountId] header, not by the
    path: two requests to the subscription endpoint that ask for the upgrade
    and carry the same [accountId] header are handed to the same object,
    whatever the account segment of either path. *)
Theorem same_header_same_instance {W1 W2 : Type} (P1 : Platform W1) (P2 : Platform W2)
    (w1 : W1) (w2 : W2) (req1 req2 : Request.t) (seg1 seg2 acct : string) :
  Request.method req1 = "GET" -> Request.method req2 = "GET" ->
  Request.path req1 = "/click-socket/" +:+ seg1 ->
  Request.path req2 = "/click-socket/" +:+ seg2 ->
  is_segment seg1 = true -> is_segment seg2 = true ->
  header req1 "Upgrade" = Some "websocket" ->
  header req2 "Upgrade" = Some "websocket" ->
  header req1 "accountId" = Some acct ->
  header req2 "accountId" = Some acct ->
  acct <> EmptyString ->
  exists doId,
    doId = idFromName LINK_CLICK_TRACKER_OBJECT acct
    /\ calls (run P1 (App_fetch lib req1) w1)
       = [MkCall (StubFetch doId req1)]
    /\ calls (run P2 (App_fetch lib req2) w2)
       = [MkCall (StubFetch doId req2)].
Proof.
  intros Hm1 Hm2 Hp1 Hp2 Hs1 Hs2 Hu1 Hu2 Ha1 Ha2 Hacct.
  eexists. split; [reflexivity |].
  rewrite (run_click_socket P1 w1 req1 seg1 Hm1 Hp1 Hs1).
  rewrite (run_click_socket P2 w2 req2 seg2 Hm2 Hp2 Hs2).
  rewrite Hu1, Hu2, Ha1, Ha2. rewrite bool_decide_eq_true_2 by done.
  by rewrite bool_decide_eq_false_2.
Qed.

End ClickSocket.

Lemma click_socket_endpoint_witness :
  let r := run Sample.platform
             (Sample.worker (Sample.subscribe "/click-socket/acc_123")) Sample.world in
  calls r = [MkCall (StubFetch (idFromName LINK_CLICK_TRACKER_OBJECT "acc_123")
                       (Sample.subscribe "/click-socket/acc_123"))]
  /\ outcome r = Fulfilled switching_protocols.
Proof.
  destruct (click_socket_endpoint Sample.lib Sample.platform Sample.world
              (Sample.subscribe "/click-socket/acc_123") "acc_123"
              eq_refl eq_refl eq_refl)
    as (_ & _ & H).
  destruct (H "acc_123") as (Hc & Hok & _); [reflexivity | reflexivity | discriminate |].
  split; [exact Hc | exact (Hok switching_protocols eq_refl)].
Defined.

Lemma same_header_same_instance_witness :
  exists doId,
    doId = idFromName LINK_CLICK_TRACKER_OBJECT "acc_123"
    /\ calls (run Sample.platform
                (Sample.worker (Sample.subscribe "/click-socket/acc_123")) Sample.world)
       = [MkCall (StubFetch doId (Sample.subscribe "/click-socket/acc_123"))]
    /\ calls (run Sample.platform
                (Sample.worker (Sample.subscribe "/click-socket/acc_999")) Sample.world)
       = [MkCall (StubFetch doId (Sample.subscribe "/click-socket/acc_999"))].
Proof.
  apply (same_header_same_instance Sample.lib Sample.platform Sample.platform
           Sample.world Sample.world
           (Sample.subscribe "/click-socket/acc_123")
           (Sample.subscribe "/click-socket/acc_999") "acc_123" "acc_999" "acc_123");
    try reflexivity.
  discriminate.
Defined.

(** C8, as the spec words it, fails: nothing is served under
    [/click-stream/].  A request there that does not ask for the upgrade is
    answered 404 by the framework, not 426. *)
Lemma click_stream_not_served :
  ~ upgrade_required_at Sample.worker "/click-stream/acc_123".
Proof.
  intros H.
  destruct (H World.t Sample.platform Sample.world
              (Sample.plain_get "/click-stream/acc_123") eq_refl eq_refl)
    as (resp & Hresp & Hstatus).
  - discriminate.
  - unfold Sample.worker in Hresp.
    rewrite (fetch_click_stream Sample.lib (Sample.plain_get "/click-stream/acc_123")
               "acc_123" eq_refl eq_refl) in Hresp.
    simpl in Hresp. injection Hresp as <-. discriminate Hstatus.
Qed.

(** * Further properties of the worker *)

(** ** Routing of the other paths *)

Section OtherRoutes.

Variable lib : Imports.

(** X1.  The do route is inert: every request [GET /do/{name}] is answered
    200 with the empty JSON object, whatever the name, without a single
    platform call; the stub of the scheduler object it builds is never
    fetched, and the platform is left as it was. *)
Theorem do_route_is_inert {W : Type} (P : Platform W) (w : W) (req : Request.t)
    (name : string) :
  Request.method req = "GET" ->
  Request.path req = "/do/" +:+ name ->
  is_segment name = true ->
  run P (App_fetch lib req) w
  = mkRun (Fulfilled (Response.mk 200 None "{}")) w [].
Proof.
  intros Hm Hp Hname. by rewrite (fetch_do lib req name Hm Hp Hname).
Qed.


End OtherRoutes.

Lemma do_route_is_inert_witness :
  run Sample.platform (Sample.worker (Sample.plain_get "/do/anything")) Sample.world_queue_down
  = mkRun (Fulfilled (Response.mk 200 None "{}")) Sample.world_queue_down [].
Proof.
  apply (do_route_is_inert Sample.lib Sample.platform Sample.world_queue_down
           (Sample.plain_get "/do/anything") "anything");
    reflexivity.
Defined.


(** ** More on the redirect route *)

Section RedirectMore.

Variable lib : Imports.

(** X3.  A click is handed to the queue exactly when the visitor is
    redirected: for every request [GET /{linkId}], the handler calls
    [QUEUE.send] if and only if its response is a 302.  A 404, a 400 and a
    failed resolver read produce no click message. *)
Theorem click_sent_iff_redirected {W : Type} (P : Platform W) (w : W) (req : Request.t)
    (linkId : string) :
  Request.method req = "GET" ->
  Request.path req = "/" +:+ linkId ->
  is_segment linkId = true ->
  let r := run P (App_fetch lib req) w in
  queue_sends (calls r) <> []
  <-> exists resp, outcome r = Fulfilled resp /\ Response.status resp = 302.
Proof.
  intros Hm Hp Hid r. subst r.
  rewrite (run_redirect lib P w req linkId Hm Hp Hid).
  destruct (answer P (GetRoutingDestinations _) w).1 as [[link |] | e].
  - destruct (cloudflareInfoSchema_safeParse lib (Request.cf req)) as [info |]; simpl.
    + destruct (getDestinationForCountry lib link (CloudflareInfo.country info)); simpl.
      * split; [by eauto | done].
      * split; [done |]. by intros (resp & [= <-] & Hs).
    + split; [done |]. by intros (resp & [= <-] & Hs).
  - simpl. split; [done |]. by intros (resp & [= <-] & Hs).
  - simpl. split; [done |]. by intros (resp & [= <-] & Hs).
Qed.

(** X4.  A request that is not redirected costs one read and nothing else:
    for every request [GET /{linkId}] whose response is not a 302, the only
    platform call is the resolver's read of the link id, as [c.req.param]
    gives it, and the platform is left as that read left it (no clock read,
    no queue send, no [waitUntil]). *)
Theorem unredirected_request_only_reads {W : Type} (P : Platform W) (w : W)
    (req : Request.t) (segment : string) :
  Request.method req = "GET" ->
  Request.path req = "/" +:+ segment ->
  is_segment segment = true ->
  let linkId := decoded lib segment in
  let r := run P (App_fetch lib req) w in
  (forall resp, outcome r = Fulfilled resp -> Response.status resp <> 302) ->
  calls r = [MkCall (GetRoutingDestinations linkId)]
  /\ world r = (answer P (GetRoutingDestinations linkId) w).2.
Proof.
  intros Hm Hp Hid linkId r. subst r.
  rewrite (run_redirect lib P w req segment Hm Hp Hid). fold linkId.
  destruct (answer P (GetRoutingDestinations linkId) w).1 as [[link |] | e];
    [| done | done].
  destruct (cloudflareInfoSchema_safeParse lib (Request.cf req)) as [info |]; simpl;
    [| done].
  destruct (getDestinationForCountry lib link (CloudflareInfo.country info)); simpl;
    [| done].
  intros Hno. by destruct (Hno _ eq_refl).
Qed.

(** X5.  What the redirect handler does not catch is answered 500: for every
    request [GET /{linkId}], when the awaited read of the resolver is
    rejected, or when the router throws for a link that resolved and a geo
    signal that parsed, the response is the framework's 500, nothing was
    handed to the queue, and the one call made is the resolver's read. *)
Theorem uncaught_failure_answers_500 {W : Type} (P : Platform W) (w : W)
    (req : Request.t) (segment : string) :
  Request.method req = "GET" ->
  Request.path req = "/" +:+ segment ->
  is_segment segment = true ->
  let linkId := decoded lib segment in
  let resolved := (answer P (GetRoutingDestinations linkId) w).1 in
  let r := run P (App_fetch lib req) w in
  ((exists e, resolved = Rejected e)
   \/ (exists link info e,
         resolved = Fulfilled (Some link)
         /\ cloudflareInfoSchema_safeParse lib (Request.cf req) = Some info
         /\ getDestinationForCountry lib link (CloudflareInfo.country info) = Throws e)) ->
  outcome r = Fulfilled internalServerError
  /\ calls r = [MkCall (GetRoutingDestinations linkId)]
  /\ queue_sends (calls r) = [].
Proof.
  intros Hm Hp Hid linkId resolved r. subst r.
  rewrite (run_redirect lib P w req segment Hm Hp Hid). fold linkId. fold resolved.
  intros [[e ->] | (link & info & e & -> & -> & ->)]; done.
Qed.

(** X6.  The redirect route stays on the fast path: for every request
    [GET /{linkId}], whatever the outcome, no call of the handler fetches a
    durable object (the live counter is not touched), writes a click to the
    store or invokes the scheduler, and the link store is read exactly
    once, for the link id as [c.req.param] gives it. *)
Theorem redirect_stays_on_fast_path {W : Type} (P : Platform W) (w : W)
    (req : Request.t) (segment : string) :
  Request.method req = "GET" ->
  Request.path req = "/" +:+ segment ->
  is_segment segment = true ->
  let r := run P (App_fetch lib req) w in
  List.filter leaves_fast_path (calls r) = []
  /\ List.filter is_GetRoutingDestinations (calls r)
     = [MkCall (GetRoutingDestinations (decoded lib segment))].
Proof.
  intros Hm Hp Hid r. subst r.
  rewrite (run_redirect lib P w req segment Hm Hp Hid).
  destruct (answer P (GetRoutingDestinations _) w).1 as [[link |] | e];
    [| done | done].
  destruct (cloudflareInfoSchema_safeParse lib (Request.cf req)) as [info |]; [| done].
  by destruct (getDestinationForCountry lib link (CloudflareInfo.country info)).
Qed.

(** X7.  Of the geo signal only the country decides where a visitor goes:
    two requests [GET /{linkId}] for the same link whose geo signals parse
    to the same country get the same response, whatever their latitude and
    longitude, their headers, the clock and the state of the queue. *)
Theorem redirect_depends_on_country_only {W1 W2 : Type} (P1 : Platform W1)
    (P2 : Platform W2) (w1 : W1) (w2 : W2) (req1 req2 : Request.t) (segment : string)
    (link : LinkInfo.t) (info1 info2 : CloudflareInfo.t) :
  Request.method req1 = "GET" -> Request.method req2 = "GET" ->
  Request.path req1 = "/" +:+ segment -> Request.path req2 = "/" +:+ segment ->
  is_segment segment = true ->
  let linkId := decoded lib segment in
  (answer P1 (GetRoutingDestinations linkId) w1).1 = Fulfilled (Some link) ->
  (answer P2 (GetRoutingDestinations linkId) w2).1 = Fulfilled (Some link) ->
  cloudflareInfoSchema_safeParse lib (Request.cf req1) = Some info1 ->
  cloudflareInfoSchema_safeParse lib (Request.cf req2) = Some info2 ->
  CloudflareInfo.country info1 = CloudflareInfo.country info2 ->
  outcome (run P1 (App_fetch lib req1) w1)
  = outcome (run P2 (App_fetch lib req2) w2).
Proof.
  intros Hm1 Hm2 Hp1 Hp2 Hid linkId H1 H2 Hcf1 Hcf2 Hc.
  rewrite (run_redirect lib P1 w1 req1 segment Hm1 Hp1 Hid).
  rewrite (run_redirect lib P2 w2 req2 segment Hm2 Hp2 Hid).
  fold linkId. rewrite H1, H2, Hcf1, Hcf2, Hc.
  by destruct (getDestinationForCountry lib link (CloudflareInfo.country info2)).
Qed.

(** X8.  What is persisted for a redirect is what the visitor was sent to:
    when a request [GET /{linkId}] is answered and its handler handed a
    message to the queue, [handleLinkClick] on that message first asks
    persistence for a click whose id is the link id as [c.req.param] gave
    it and whose destination is the one given to [c.redirect], so that the
    [Location] of the response is the encoding of it; and, when persistence
    succeeds, it then invokes the scheduler with the very same message. *)
Theorem persisted_click_matches_redirect {W W' : Type} (P : Platform W) (w : W)
    (P' : Platform W') (w' : W') (req : Request.t) (segment : string)
    (resp : Response.t) (msg : LinkClickMessage.t) (delay : Z) :
  Request.method req = "GET" ->
  Request.path req = "/" +:+ segment ->
  is_segment segment = true ->
  let r := run P (App_fetch lib req) w in
  outcome r = Fulfilled resp ->
  In (msg, delay) (queue_sends (calls r)) ->
  let d := LinkClickMessage.data msg in
  let r' := run P' (handleLinkClick msg) w' in
  LinkClickData.id d = decoded lib segment
  /\ resp = redirect (encodeLocation lib) (LinkClickData.destination d)
  /\ head (calls r') = Some (MkCall (AddLinkClick d))
  /\ ((answer P' (AddLinkClick d) w').1 = Fulfilled () ->
      calls r' = [MkCall (AddLinkClick d); MkCall (ScheduleEvalWorfklow msg)]).
Proof.
  intros Hm Hp Hid r. subst r.
  rewrite (run_redirect lib P w req segment Hm Hp Hid).
  destruct (answer P (GetRoutingDestinations _) w).1 as [[link |] | e];
    [| by intros _ [] | by intros _ []].
  destruct (cloudflareInfoSchema_safeParse lib (Request.cf req)) as [info |]; simpl;
    [| by intros _ []].
  destruct (getDestinationForCountry lib link (CloudflareInfo.country info))
    as [destination | e]; simpl; [| by intros _ []].
  intros [= <-] [[= <- <-] | []]. simpl.
  split; [done |]. split; [done |]. split; [done |].
  intros Hf. rewrite Hf. simpl.
  by destruct (answer P' (ScheduleEvalWorfklow _) _).1.
Qed.

End RedirectMore.

Lemma click_sent_iff_redirected_witness :
  queue_sends (calls (run Sample.platform (Sample.worker Sample.visit_no_geo) Sample.world))
  <> []
  <-> exists resp,
      outcome (run Sample.platform (Sample.worker Sample.visit_no_geo) Sample.world)
      = Fulfilled resp /\ Response.status resp = 302.
Proof.
  apply (click_sent_iff_redirected Sample.lib Sample.platform Sample.world
           Sample.visit_no_geo "dAd5d");
    reflexivity.
Defined.

Lemma unredirected_request_only_reads_witness :
  let r := run Sample.platform (Sample.worker Sample.visit_no_geo) Sample.world in
  calls r = [MkCall (GetRoutingDestinations "dAd5d")]
  /\ world r = Sample.world.
Proof.
  apply (unredirected_request_only_reads Sample.lib Sample.platform Sample.world
           Sample.visit_no_geo "dAd5d");
    [reflexivity | reflexivity | reflexivity |].
  intros resp [= <-]. discriminate.
Defined.

Lemma uncaught_failure_answers_500_witness :
  let r := run Sample.platform_store_down (Sample.worker Sample.visit_escaped)
             Sample.world in
  outcome r = Fulfilled internalServerError
  /\ calls r = [MkCall (GetRoutingDestinations "dAd5d")]
  /\ queue_sends (calls r) = [].
Proof.
  apply (uncaught_failure_answers_500 Sample.lib Sample.platform_store_down
           Sample.world Sample.visit_escaped "dAd5%64");
    [reflexivity | reflexivity | reflexivity |].
  left. by exists "record store unavailable".
Defined.

Lemma redirect_stays_on_fast_path_witness :
  let r := run Sample.platform (Sample.worker Sample.visit_escaped) Sample.world in
  List.filter leaves_fast_path (calls r) = []
  /\ List.filter is_GetRoutingDestinations (calls r)
     = [MkCall (GetRoutingDestinations "dAd5d")].
Proof.
  apply (redirect_stays_on_fast_path Sample.lib Sample.platform Sample.world
           Sample.visit_escaped "dAd5%64");
    reflexivity.
Defined.

Lemma redirect_depends_on_country_only_witness :
  outcome (run Sample.platform (Sample.worker Sample.visit_DE) Sample.world)
  = outcome (run Sample.platform (Sample.worker Sample.visit_DE_positioned)
               Sample.world_queue_down).
Proof.
  apply (redirect_depends_on_country_only Sample.lib Sample.platform Sample.platform
           Sample.world Sample.world_queue_down Sample.visit_DE
           Sample.visit_DE_positioned "eFg6e" Sample.geo_link
           Sample.info_DE Sample.info_DE_positioned);
    reflexivity.
Defined.

Lemma persisted_click_matches_redirect_witness :
  let r' := run Sample.platform (handleLinkClick Sample.event)
              Sample.world_scheduler_down in
  LinkClickData.id Sample.click = "dAd5d"
  /\ redirect Sample.encode_location "https://example.com/fallback"
     = redirect Sample.encode_location (LinkClickData.destination Sample.click)
  /\ head (calls r') = Some (MkCall (AddLinkClick Sample.click))
  /\ ((answer Sample.platform (AddLinkClick Sample.click) Sample.world_scheduler_down).1
      = Fulfilled () ->
      calls r' = [MkCall (AddLinkClick Sample.click);
                  MkCall (ScheduleEvalWorfklow Sample.event)]).
Proof.
  apply (persisted_click_matches_redirect Sample.lib Sample.platform Sample.world
           Sample.platform Sample.world_scheduler_down Sample.visit_escaped "dAd5%64"
           (redirect Sample.encode_location "https://example.com/fallback")
           Sample.event 600
           eq_refl eq_refl eq_refl eq_refl (or_introl eq_refl)).
Defined.

(** ** More on the click-socket route and the queue handler *)

Section ClickSocketMore.

Variable lib : Imports.

(** X9.  A subscription is not a click: for every request
    [GET /click-socket/{segment}], whatever its headers, the handler never
    reads the link store and never sends to the queue.  Either it calls
    nothing and leaves the platform as it was (the request was refused), or
    its one call is the fetch of the tracker object named by a non-empty
    [accountId] header, with the request as it came. *)
Theorem subscription_is_not_a_click {W : Type} (P : Platform W) (w : W)
    (req : Request.t) (seg : string) :
  Request.method req = "GET" ->
  Request.path req = "/click-socket/" +:+ seg ->
  is_segment seg = true ->
  let r := run P (App_fetch lib req) w in
  queue_sends (calls r) = []
  /\ List.filter is_GetRoutingDestinations (calls r) = []
  /\ ((calls r = [] /\ world r = w)
      \/ exists acct,
           header req "accountId" = Some acct /\ acct <> EmptyString
           /\ calls r = [MkCall (StubFetch (idFromName LINK_CLICK_TRACKER_OBJECT acct) req)]).
Proof.
  intros Hm Hp Hseg r. subst r.
  rewrite (run_click_socket lib P w req seg Hm Hp Hseg).
  case_bool_decide; [| simpl; auto].
  destruct (header req "accountId") as [acct |]; [| simpl; auto].
  case_bool_decide; simpl; [auto |].
  split; [done |]. split; [done |]. right. by exists acct.
Qed.

End ClickSocketMore.

Lemma subscription_is_not_a_click_witness :
  let r := run Sample.platform
             (Sample.worker (Sample.subscribe "/click-socket/acc_123")) Sample.world in
  queue_sends (calls r) = []
  /\ List.filter is_GetRoutingDestinations (calls r) = [].
Proof.
  destruct (subscription_is_not_a_click Sample.lib Sample.platform Sample.world
              (Sample.subscribe "/click-socket/acc_123") "acc_123"
              eq_refl eq_refl eq_refl)
    as (Hq & Hr & _).
  split; [exact Hq | exact Hr].
Defined.

(** X10.  [handleLinkClick] succeeds only when both of its steps do: its
    promise is fulfilled exactly when persistence is fulfilled and the
    scheduler, invoked on the state persistence left, is fulfilled too.  A
    caller that acknowledges a message on fulfilment acknowledges no click
    that was not both stored and handed to the scheduler. *)
Theorem handleLinkClick_fulfilled_iff {W : Type} (P : Platform W) (w : W)
    (event : LinkClickMessage.t) :
  let persisted := answer P (AddLinkClick (LinkClickMessage.data event)) w in
  let scheduled := answer P (ScheduleEvalWorfklow event) persisted.2 in
  outcome (run P (handleLinkClick event) w) = Fulfilled ()
  <-> persisted.1 = Fulfilled () /\ scheduled.1 = Fulfilled ().
Proof.
  intros persisted scheduled. rewrite run_handleLinkClick.
  fold persisted scheduled.
  destruct persisted.1 as [[] | e]; simpl.
  - tauto.
  - split; [discriminate | by intros [? _]].
Qed.

Lemma handleLinkClick_fulfilled_iff_witness :
  outcome (run Sample.platform (handleLinkClick Sample.event) Sample.world) = Fulfilled ().
Proof.
  apply (handleLinkClick_fulfilled_iff Sample.platform Sample.world Sample.event).
  split; reflexivity.
Defined.
